(** * cover_agent/AICaller.py: a shallow embedding and its properties

    The module wraps two libraries: the OpenAI client (one streaming
    chat-completion request) and tiktoken (token counting).  The class
    [AICaller] has a constructor and two methods, [call_model] and
    [count_tokens].

    Python values are modelled as follows:
    - [str] is a list of Unicode code points;
    - an exception is a class, a message and the exception it was raised
      while handling ([__context__]);
    - statements run in a state-and-exception monad: a raise leaves the
      state as it was at the point of the raise, so a handler sees every
      earlier assignment and every earlier write to standard output;
    - a write to standard output can fail: which texts the stream refuses,
      and with what exception, is a parameter of [call_model];
    - the libraries are values of record types whose fields are the calls
      the module makes. *)

From Stdlib Require Import String Ascii.
From Stdlib Require Import List NArith ZArith Bool Lia.
Import ListNotations.

(** ** Strings *)

Definition codepoint := N.
Definition str := list codepoint.

(** A string literal of the source (ASCII only). *)
Definition lit (s : string) : str := map N_of_ascii (list_ascii_of_string s).

(** The one-character string "\n". *)
Definition nl : str := [10%N].

(** [str.isspace] on one character: CPython's [_PyUnicode_IsWhitespace]. *)
Definition isspace (c : codepoint) : bool :=
  ((9 <=? c) && (c <=? 13) || (28 <=? c) && (c <=? 32)
   || (c =? 133) || (c =? 160) || (c =? 5760)
   || (8192 <=? c) && (c <=? 8202)
   || (c =? 8232) || (c =? 8233) || (c =? 8239) || (c =? 8287)
   || (c =? 12288))%N.

Fixpoint lstrip (s : str) : str :=
  match s with
  | c :: s' => if isspace c then lstrip s' else s
  | [] => []
  end.

Definition rstrip (s : str) : str := rev (lstrip (rev s)).

(** [str.strip()] with no argument. *)
Definition strip (s : str) : str := rstrip (lstrip s).

(** Truth value of a string: the empty string is false. *)
Definition nonempty (s : str) : bool :=
  match s with [] => false | _ :: _ => true end.

(** ** Exceptions *)

(** The classes that matter to [except Exception]: everything but
    [NonException] derives from [Exception]. *)
Inductive exn_class :=
| ValueError
| IndexError
| AttributeError
| OtherException (name : string)  (* any other subclass of Exception *)
| NonException (name : string).   (* KeyboardInterrupt, SystemExit, GeneratorExit *)

#[warnings="-register-all"] Inductive exn :=
| Exn (cls : exn_class) (msg : str) (context : option exn).

Definition exn_cls (e : exn) : exn_class := let 'Exn c _ _ := e in c.
(** [str(e)], as an f-string formats it. *)
Definition exn_str (e : exn) : str := let 'Exn _ m _ := e in m.
Definition exn_context (e : exn) : option exn := let 'Exn _ _ c := e in c.

(** The exception [raised] while [handled] was being handled: Python
    records the latter as its [__context__]. *)
Definition during (handled raised : exn) : exn :=
  let 'Exn c m _ := raised in Exn c m (Some handled).

(** [isinstance(e, Exception)] *)
Definition is_Exception (e : exn) : bool :=
  match exn_cls e with NonException _ => false | _ => true end.

Inductive result (A : Type) :=
| Ok (a : A)
| Raise (e : exn).
Arguments Ok {A} a.
Arguments Raise {A} e.

(** ** The monad of statements *)

Definition M (S A : Type) : Type := S -> result A * S.

Section Statements.
Context {S : Type}.

Definition ret {A} (a : A) : M S A := fun s => (Ok a, s).

Definition bind {A B} (m : M S A) (k : A -> M S B) : M S B :=
  fun s => match m s with
           | (Ok a, s') => k a s'
           | (Raise e, s') => (Raise e, s')
           end.

Definition raise {A} (e : exn) : M S A := fun s => (Raise e, s).

(** The value or exception of a library call. *)
Definition call {A} (r : result A) : M S A := fun s => (r, s).

(** [try: body / except Exception as e: handler e]; what the handler
    raises is raised during the handling of [e]. *)
Definition try_except {A} (body : M S A) (handler : exn -> M S A) : M S A :=
  fun s => match body s with
           | (Ok a, s') => (Ok a, s')
           | (Raise e, s') =>
               if is_Exception e then
                 match handler e s' with
                 | (Raise e', s'') => (Raise (during e e'), s'')
                 | done => done
                 end
               else (Raise e, s')
           end.

(** [time.sleep]: pacing only, no effect on the state. *)
Definition time_sleep (centiseconds : N) : M S unit := ret tt.
End Statements.

Declare Scope py_scope.
Delimit Scope py_scope with py.
Notation "x <- c ;; k" := (bind c (fun x => k))
  (at level 61, c at next level, right associativity) : py_scope.
Notation "c ;; k" := (bind c (fun _ => k))
  (at level 61, right associativity) : py_scope.
Open Scope py_scope.

(** ** The libraries *)

(** openai: the chunks of a streamed chat completion. *)
Record Delta := { content : option str }.
Record Choice := { delta : option Delta }.
Record Chunk := { choices : list Choice }.

(** The response iterator: each [next] yields a chunk, stops, or raises. *)
Inductive Stream :=
| StopIteration
| Yield (chunk : Chunk) (rest : Stream)
| Broken (e : exn).

Record Message := { role : str; msg_content : str }.

Record Request := {
  messages : list Message;
  req_model : str;
  temperature : Z;
  req_max_tokens : Z;
  stream : bool
}.

(** The client: [client.chat.completions.create]. *)
Record OpenAI := { chat_completions_create : Request -> result Stream }.

(** tiktoken: an encoding and its [encode]. *)
Record Encoding := { encode : str -> result (list Z) }.

(** What the module imports: [os.getenv], the [OpenAI] constructor and
    [tiktoken.get_encoding]. *)
Record Host := {
  getenv : str -> option str;
  OpenAI_new : str -> result OpenAI;
  get_encoding : str -> result Encoding
}.

(** ** The class *)

(** The attributes of an instance; [None] is an attribute not set yet.
    [api_key] holds what [os.getenv] returned, which may be Python's None. *)
Record AICaller := {
  api_key : option (option str);
  model : option str;
  openai_client : option OpenAI;
  encoding : option Encoding
}.

(** What a method can reach: standard output and the instance. *)
Record World := { stdout : str; self : AICaller }.

Definition blank : AICaller :=
  {| api_key := None; model := None; openai_client := None; encoding := None |}.

Definition no_attribute (name : string) : exn :=
  Exn AttributeError
      (lit "'AICaller' object has no attribute '" ++ lit name ++ lit "'") None.

Definition getattr {A} (name : string) (field : AICaller -> option A)
  : M World A :=
  fun w => match field (self w) with
           | Some v => (Ok v, w)
           | None => (Raise (no_attribute name), w)
           end.

Definition setattr (update : AICaller -> AICaller) : M World unit :=
  fun w => (Ok tt, {| stdout := stdout w; self := update (self w) |}).

Definition set_api_key (v : option str) (o : AICaller) : AICaller :=
  {| api_key := Some v; model := model o;
     openai_client := openai_client o; encoding := encoding o |}.
Definition set_model (v : str) (o : AICaller) : AICaller :=
  {| api_key := api_key o; model := Some v;
     openai_client := openai_client o; encoding := encoding o |}.
Definition set_openai_client (v : OpenAI) (o : AICaller) : AICaller :=
  {| api_key := api_key o; model := model o;
     openai_client := Some v; encoding := encoding o |}.
Definition set_encoding (v : Encoding) (o : AICaller) : AICaller :=
  {| api_key := api_key o; model := model o;
     openai_client := openai_client o; encoding := Some v |}.

(** *** __init__ *)

Definition __init__ (host : Host) (model_name : str) : M World unit :=
  setattr (set_api_key (getenv host (lit "OPENAI_API_KEY"))) ;;
  k <- getattr "api_key" api_key ;;
  match k with
  | None | Some [] =>
      raise (Exn ValueError
               (lit "OPENAI_API_KEY environment variable not found.") None)
  | Some key =>
      setattr (set_model model_name) ;;
      client <- call (OpenAI_new host key) ;;
      setattr (set_openai_client client) ;;
      try_except
        (enc <- call (get_encoding host (lit "cl100k_base")) ;;
         setattr (set_encoding enc))
        (fun e =>
           raise (Exn ValueError (lit "Failed to get encoding: " ++ exn_str e)
                    (Some e)))
  end.

(** The expression [AICaller(model)]: a fresh object is initialised and
    handed to the caller only if [__init__] returns. *)
Definition AICaller_new (host : Host) (model_name : str) (out : str)
  : result AICaller * str :=
  let '(r, w) := __init__ host model_name {| stdout := out; self := blank |} in
  (match r with Ok _ => Ok (self w) | Raise e => Raise e end, stdout w).

(** *** call_model: its frame and its loop *)

(** The frame of [call_model]: the world and the local [full_text]. *)
Record Frame := { world : World; full_text : str }.

Definition in_world {A} (m : M World A) : M Frame A :=
  fun f => let '(r, w) := m (world f) in
           (r, {| world := w; full_text := full_text f |}).

Definition get_full_text : M Frame str := fun f => (Ok (full_text f), f).
Definition set_full_text (v : str) : M Frame unit :=
  fun f => (Ok tt, {| world := world f; full_text := v |}).

(** What indexing an empty list raises. *)
Definition index_error : exn :=
  Exn IndexError (lit "list index out of range") None.

(** [chunk.choices[0]] *)
Definition first_choice {S} (l : list Choice) : M S Choice :=
  match l with
  | c :: _ => ret c
  | [] => raise index_error
  end.

(** [for chunk in response: body chunk] *)
Fixpoint for_each {S} (response : Stream) (body : Chunk -> M S unit)
  : M S unit :=
  match response with
  | StopIteration => ret tt
  | Yield chunk rest => body chunk ;; for_each rest body
  | Broken e => raise e
  end.
Definition default_max_tokens : Z := 4096.

(** *** count_tokens *)

Definition count_tokens (text : str) : M World Z :=
  try_except
    (enc <- getattr "encoding" encoding ;;
     tokens <- call (encode enc text) ;;
     ret (Z.of_nat (length tokens)))
    (fun e =>
       raise (Exn ValueError (lit "Error encoding text: " ++ exn_str e)
                (Some e))).

(** ** What a stream delivers

    The definitions of this part do not come from the methods: they say,
    on the stream alone, which fragments count as received and what ends
    the consumption when every print goes through. *)

(** The non-empty content fragment of a choice, if it carries one. *)
Definition fragment (c : Choice) : option str :=
  match delta c with
  | Some d => match content d with
              | Some text => if nonempty text then Some text else None
              | None => None
              end
  | None => None
  end.




(** [cs] followed by [rest]. *)
Fixpoint yield_all (cs : list Chunk) (rest : Stream) : Stream :=
  match cs with
  | [] => rest
  | c :: cs' => Yield c (yield_all cs' rest)
  end.



Definition whitespace_only (text : str) : bool := forallb isspace text.

(** The request [call_model] sends. *)
Definition request (model_name prompt : str) (max_tokens : Z) : Request :=
  {| messages := [ {| role := lit "user"; msg_content := prompt |} ];
     req_model := model_name;
     temperature := 0;
     req_max_tokens := max_tokens;
     stream := true |}.

(** The two messages of [call_model], and the lines they print. *)
Definition banner_text : str := lit "Streaming results from LLM model...".
Definition report_text (e : exn) : str :=
  lit "Error during streaming: " ++ exn_str e.

Definition banner : str := lit "Streaming results from LLM model..." ++ nl.
Definition error_report (e : exn) : str :=
  lit "Error during streaming: " ++ exn_str e ++ nl.

(** The three exceptions the class raises itself; the last two are raised
    while handling [e], which they keep as their context. *)
Definition credential_error : exn :=
  Exn ValueError (lit "OPENAI_API_KEY environment variable not found.") None.
Definition encoding_load_error (e : exn) : exn :=
  Exn ValueError (lit "Failed to get encoding: " ++ exn_str e) (Some e).
Definition token_error (e : exn) : exn :=
  Exn ValueError (lit "Error encoding text: " ++ exn_str e) (Some e).

Arguments lit : simpl never.
Arguments banner : simpl never.
Arguments error_report : simpl never.
Arguments banner_text : simpl never.
Arguments report_text : simpl never.

(** An instance whose four attributes are set. *)
Definition initialised (o : AICaller) : Prop :=
  exists key client m enc,
    key <> [] /\
    o = {| api_key := Some (Some key); model := Some m;
           openai_client := Some client; encoding := Some enc |}.

(** ** Fixtures: small libraries to run the methods on *)

Module Fixture.
Definition text_delta (s : string) : Chunk :=
  {| choices := [ {| delta := Some {| content := Some (lit s) |} |} ] |}.
Definition role_only : Chunk :=
  {| choices := [ {| delta := Some {| content := None |} |} ] |}.
Definition no_choice : Chunk := {| choices := [] |}.

Definition connection_lost : exn :=
  Exn (OtherException "APIConnectionError") (lit "Connection error.") None.
Definition interrupt : exn :=
  Exn (NonException "KeyboardInterrupt") [] None.
Definition rejected : exn :=
  Exn (OtherException "AuthenticationError") (lit "Incorrect API key") None.

(** One token per character; a NUL character stands for a special token
    the encoding refuses. *)
Definition refused : exn :=
  Exn ValueError (lit "disallowed special token") None.
Definition per_char : Encoding :=
  {| encode := fun text =>
       if existsb (N.eqb 0) text then Raise refused
       else Ok (map Z.of_N text) |}.

Definition client (r : result Stream) : OpenAI :=
  {| chat_completions_create := fun _ => r |}.

Definition host (key : option str) (r : result Stream)
                (enc : result Encoding) : Host :=
  {| getenv := fun name =>
       if list_eq_dec N.eq_dec name (lit "OPENAI_API_KEY") then key else None;
     OpenAI_new := fun _ => Ok (client r);
     get_encoding := fun name =>
       if list_eq_dec N.eq_dec name (lit "cl100k_base") then enc
       else Raise (Exn ValueError (lit "Unknown encoding " ++ name) None) |}.

Definition instance (r : result Stream) : AICaller :=
  {| api_key := Some (Some (lit "sk-test")); model := Some (lit "gpt-4o");
     openai_client := Some (client r); encoding := Some per_char |}.

Definition start (r : result Stream) : World :=
  {| stdout := []; self := instance r |}.

Definition hello_then_lost : Stream :=
  Yield (text_delta "Hel") (Yield (text_delta "lo") (Broken connection_lost)).

(** A complete answer, padded with blanks, between a role-only chunk and
    an empty delta. *)
Definition greeting : Stream :=
  Yield role_only
    (Yield (text_delta "  Hel")
       (Yield (text_delta "lo, world")
          (Yield (text_delta "") (Yield (text_delta " ") StopIteration)))).



(** Two fragments, a chunk without choices, and a fragment never read. *)
Definition leading : list Chunk := [text_delta "par"; text_delta "tial"].
Definition cut_short : Stream :=
  yield_all leading (Yield no_choice (Yield (text_delta " lost") StopIteration)).

Definition good_host : Host :=
  host (Some (lit "sk-test")) (Ok StopIteration) (Ok per_char).
End Fixture.

(** ** Streams compared *)

(** A chunk reduced to its first choice. *)
Definition first_choice_only (chunk : Chunk) : Chunk :=
  {| choices := firstn 1 (choices chunk) |}.

Fixpoint map_chunks (f : Chunk -> Chunk) (s : Stream) : Stream :=
  match s with
  | StopIteration => StopIteration
  | Yield chunk rest => Yield (f chunk) (map_chunks f rest)
  | Broken e => Broken e
  end.

(** A chunk that can be indexed and whose first choice has no delta, no
    content or an empty content. *)
Definition carries_nothing (chunk : Chunk) : bool :=
  match choices chunk with
  | c :: _ => match fragment c with Some _ => false | None => true end
  | [] => false
  end.

Definition first_char (s : str) : option codepoint := hd_error s.
Definition last_char (s : str) : option codepoint := hd_error (rev s).

(** The character, if there is one, is not whitespace. *)
Definition not_space (c : option codepoint) : bool :=
  match c with Some c => negb (isspace c) | None => true end.



Module Cases.
Definition str_eqb (a b : str) : bool :=
  if list_eq_dec N.eq_dec a b then true else false.


(** Two choices per chunk, as a request with n = 2 would get. *)
Definition two_choices (a b : string) : Chunk :=
  {| choices := [ {| delta := Some {| content := Some (lit a) |} |};
                  {| delta := Some {| content := Some (lit b) |} |} ] |}.
Definition doubled : Stream :=
  Yield (two_choices "Hel" "Bon") (Yield (two_choices "lo" "jour") StopIteration).

Definition finish : Chunk := {| choices := [ {| delta := None |} ] |}.

(** A client that answers only the request [call_model] builds for the
    prompt "hi" and the model "gpt-4o". *)
Definition picky : OpenAI :=
  {| chat_completions_create := fun r =>
       match messages r with
       | [ msg ] =>
           if (str_eqb (role msg) (lit "user")
               && str_eqb (msg_content msg) (lit "hi")
               && str_eqb (req_model r) (lit "gpt-4o")
               && (temperature r =? 0)%Z
               && (req_max_tokens r =? 4096)%Z
               && stream r)%bool
           then Ok Fixture.greeting
           else Raise Fixture.rejected
       | _ => Raise Fixture.rejected
       end |}.

Definition no_client : exn :=
  Exn (OtherException "OpenAIError") (lit "client could not be created") None.

Definition failing_host (client : result OpenAI) (enc : result Encoding)
  : Host :=
  {| getenv := fun _ => Some (lit "sk-test");
     OpenAI_new := fun _ => client;
     get_encoding := fun _ => enc |}.

Definition interrupting : Encoding :=
  {| encode := fun _ => Raise Fixture.interrupt |}.

(** A standard output encoded in UTF-8: a lone surrogate cannot be
    written. *)
Definition surrogate : str := [55296%N].
Definition encode_error : exn :=
  Exn (OtherException "UnicodeEncodeError")
      (lit "'utf-8' codec can't encode character: surrogates not allowed")
      None.
Definition utf8_strict (text : str) : option exn :=
  if existsb (fun c => (55296 <=? c) && (c <=? 57343))%N text
  then Some encode_error else None.

(** A standard output that is closed. *)
Definition closed_file : exn :=
  Exn ValueError (lit "I/O operation on closed file.") None.
Definition closed (text : str) : option exn := Some closed_file.



(** An error whose message cannot be printed. *)
Definition bad_report : exn :=
  Exn (OtherException "RuntimeError") surrogate None.
Definition hel_then_bad : Stream :=
  Yield (Fixture.text_delta "Hel") (Broken bad_report).



End Cases.

(** ** Standard output, and the method that prints *)

Section Console.

(** What [sys.stdout.write] raises on a text, if it raises: an encoding
    error for a character the stream cannot encode, the error of a stream
    that is closed.  It is taken to depend on the text only. *)
Variable refuses : str -> option exn.

Definition write (text : str) : M World unit :=
  fun w => match refuses text with
           | Some e => (Raise e, w)
           | None => (Ok tt, {| stdout := stdout w ++ text; self := self w |})
           end.

(** [print(text, end=ending)]: the text is written, then the ending. *)
Definition print (text ending : str) : M World unit :=
  write text ;; write ending.

(** *** call_model *)

(** The body of the loop, lines 56 to 64. *)
Definition on_chunk (chunk : Chunk) : M Frame unit :=
  c <- first_choice (choices chunk) ;;
  match delta c with
  | Some d =>
      match content d with
      | Some text =>
          if nonempty text then
            in_world (print text []) ;;
            acc <- get_full_text ;;
            set_full_text (acc ++ text) ;;
            time_sleep 1
          else ret tt
      | None => ret tt
      end
  | None => ret tt
  end.

Definition call_model_body (prompt : str) (max_tokens : Z) : M Frame str :=
  client <- in_world (getattr "openai_client" openai_client) ;;
  m <- in_world (getattr "model" model) ;;
  response <- call (chat_completions_create client
                      {| messages := [ {| role := lit "user";
                                          msg_content := prompt |} ];
                         req_model := m;
                         temperature := 0;
                         req_max_tokens := max_tokens;
                         stream := true |}) ;;
  set_full_text [] ;;
  in_world (print (lit "Streaming results from LLM model...") nl) ;;
  try_except
    (for_each response on_chunk)
    (fun e => in_world (print (lit "Error during streaming: " ++ exn_str e) nl)) ;;
  in_world (print nl nl) ;;
  acc <- get_full_text ;;
  ret (strip acc).

(** A call of the method: the frame is created on entry and dropped on
    exit ([full_text] is unbound until line 52 assigns it, and is not read
    before). *)
Definition call_model (prompt : str) (max_tokens : Z) : M World str :=
  fun w => let '(r, f) := call_model_body prompt max_tokens
                            {| world := w; full_text := [] |} in
           (r, world f).


(** *** What the loop does to a stream *)

(** The exception [print(text, end=ending)] raises, if it raises. *)
Definition print_error (text ending : str) : option exn :=
  match refuses text with
  | Some e => Some e
  | None => refuses ending
  end.

Definition prints (text ending : str) : bool :=
  match print_error text ending with None => true | Some _ => false end.

(** What a print that raises has written all the same: the text, when it
    is the ending that was refused. *)
Definition print_left (text : str) : str :=
  match refuses text with Some _ => [] | None => text end.

(** The fragments printed and accumulated before the stream ends, an error
    occurs or a fragment cannot be printed, in arrival order. *)
Fixpoint kept (s : Stream) : list str :=
  match s with
  | StopIteration => []
  | Broken _ => []
  | Yield chunk rest =>
      match choices chunk with
      | [] => []
      | c :: _ => match fragment c with
                  | Some text => if prints text [] then text :: kept rest
                                 else []
                  | None => kept rest
                  end
      end
  end.

(** What the loop writes to standard output. *)
Fixpoint shown (s : Stream) : str :=
  match s with
  | StopIteration => []
  | Broken _ => []
  | Yield chunk rest =>
      match choices chunk with
      | [] => []
      | c :: _ => match fragment c with
                  | Some text => if prints text [] then text ++ shown rest
                                 else print_left text
                  | None => shown rest
                  end
      end
  end.

(** The exception that stops the loop, if one does: a raise of the
    iterator, the index error of a chunk without choices, or the failure
    to print a fragment. *)
Fixpoint stop (s : Stream) : option exn :=
  match s with
  | StopIteration => None
  | Broken e => Some e
  | Yield chunk rest =>
      match choices chunk with
      | [] => Some index_error
      | c :: _ => match fragment c with
                  | Some text => match print_error text [] with
                                 | Some e => Some e
                                 | None => stop rest
                                 end
                  | None => stop rest
                  end
      end
  end.



(** Lines 67 to 69 after [added] has been written and [acc] accumulated:
    the result, and all that the call has written. *)
Definition finish (acc added : str) : result str * str :=
  match print_error nl nl with
  | Some e => (Raise e, added ++ print_left nl)
  | None => (Ok (strip acc), added ++ nl ++ nl)
  end.

(** Lines 52 to 69 on the stream the request returned: the result, and
    what the call writes. *)
Definition on_stream (s : Stream) : result str * str :=
  match print_error banner_text nl with
  | Some e => (Raise e, print_left banner_text)
  | None =>
      match stop s with
      | None => finish (concat (kept s)) (banner ++ shown s)
      | Some e =>
          if is_Exception e then
            match print_error (report_text e) nl with
            | Some e' =>
                (Raise (during e e'),
                 banner ++ shown s ++ print_left (report_text e))
            | None =>
                finish (concat (kept s)) (banner ++ shown s ++ error_report e)
            end
          else (Raise e, banner ++ shown s)
      end
  end.

(** ** Trimming *)






(** ** More on trimming *)

Lemma lstrip_first (s : str) : not_space (first_char (lstrip s)) = true.
Proof.
  induction s as [|a s IH]; simpl; [reflexivity|].
  destruct (isspace a) eqn:Ha; [exact IH|]. simpl. now rewrite Ha.
Qed.

Lemma lstrip_split (s : str) :
  exists pre, s = pre ++ lstrip s /\ whitespace_only pre = true.
Proof.
  induction s as [|a s [pre [Hs Hpre]]]; simpl.
  - now exists [].
  - destruct (isspace a) eqn:Ha.
    + exists (a :: pre). simpl. rewrite Ha, Hpre. now rewrite <- Hs.
    + now exists [].
Qed.

Lemma whitespace_only_rev (s : str) :
  whitespace_only s = true -> whitespace_only (rev s) = true.
Proof.
  unfold whitespace_only. rewrite !forallb_forall.
  intros H c Hin. apply H. now apply in_rev.
Qed.

Lemma rstrip_split (s : str) :
  exists post, s = rstrip s ++ post /\ whitespace_only post = true.
Proof.
  destruct (lstrip_split (rev s)) as [pre [Hs Hpre]].
  exists (rev pre). split; [|now apply whitespace_only_rev].
  unfold rstrip. rewrite <- rev_app_distr, <- Hs. now rewrite rev_involutive.
Qed.

Lemma lstrip_fixed (s : str) : not_space (first_char s) = true -> lstrip s = s.
Proof.
  destruct s as [|a s]; simpl; [reflexivity|].
  now destruct (isspace a).
Qed.

Lemma rstrip_fixed (s : str) : not_space (last_char s) = true -> rstrip s = s.
Proof.
  unfold last_char, rstrip. intros H.
  rewrite (lstrip_fixed (rev s) H). apply rev_involutive.
Qed.

Lemma rstrip_last (s : str) : not_space (last_char (rstrip s)) = true.
Proof.
  unfold last_char, rstrip. rewrite rev_involutive. apply lstrip_first.
Qed.

(** Trimming the right end keeps a first character that is not whitespace. *)
Lemma rstrip_first (s : str) :
  not_space (first_char s) = true -> not_space (first_char (rstrip s)) = true.
Proof.
  destruct (rstrip_split s) as [post [Hs Hpost]].
  destruct (rstrip s) as [|a r] eqn:Hr; [reflexivity|].
  rewrite Hs. simpl. auto.
Qed.

Lemma strip_ends (s : str) :
  not_space (first_char (strip s)) = true
  /\ not_space (last_char (strip s)) = true.
Proof.
  unfold strip. split.
  - apply rstrip_first, lstrip_first.
  - apply rstrip_last.
Qed.

Lemma strip_fixed (s : str) :
  not_space (first_char s) = true -> not_space (last_char s) = true ->
  strip s = s.
Proof.
  intros Hf Hl. unfold strip. rewrite (lstrip_fixed s Hf).
  now apply rstrip_fixed.
Qed.



(** ** Construction and count_tokens, step by step *)

Lemma AICaller_new_run (host : Host) (model_name out : str) :
  AICaller_new host model_name out =
  (match getenv host (lit "OPENAI_API_KEY") with
   | None | Some [] => Raise credential_error
   | Some key =>
       match OpenAI_new host key with
       | Raise e => Raise e
       | Ok client =>
           match get_encoding host (lit "cl100k_base") with
           | Ok enc =>
               Ok {| api_key := Some (Some key); model := Some model_name;
                     openai_client := Some client; encoding := Some enc |}
           | Raise e =>
               if is_Exception e then Raise (encoding_load_error e) else Raise e
           end
       end
   end, out).
Proof.
  unfold AICaller_new, __init__, credential_error, encoding_load_error.
  cbv beta iota zeta delta
      [bind setattr getattr self stdout set_api_key api_key blank].
  destruct (getenv host (lit "OPENAI_API_KEY")) as [[|c key]|];
    try reflexivity.
  cbv beta iota zeta delta
      [bind setattr getattr self stdout set_model call try_except raise].
  destruct (OpenAI_new host (c :: key)) as [client|e]; [|reflexivity].
  destruct (get_encoding host (lit "cl100k_base")) as [enc|e];
    [reflexivity|].
  destruct (is_Exception e); reflexivity.
Qed.

Lemma count_tokens_run (w : World) (enc : Encoding) (text : str) :
  encoding (self w) = Some enc ->
  count_tokens text w =
  (match encode enc text with
   | Ok tokens => Ok (Z.of_nat (length tokens))
   | Raise e => if is_Exception e then Raise (token_error e) else Raise e
   end, w).
Proof.
  intros He. unfold count_tokens, try_except, bind, getattr, call, ret, raise.
  rewrite He. destruct (encode enc text) as [tokens|e]; [reflexivity|].
  destruct (is_Exception e); reflexivity.
Qed.

(** [count_tokens] leaves standard output and the instance as they were,
    whatever the instance and whatever the outcome. *)
Lemma count_tokens_frame (w : World) (text : str) :
  snd (count_tokens text w) = w.
Proof.
  destruct (encoding (self w)) as [enc|] eqn:He.
  - now rewrite (count_tokens_run w enc text He).
  - unfold count_tokens, try_except, bind, getattr. now rewrite He.
Qed.

(** An object the constructor hands out has its four attributes set, the
    encoding being the one [tiktoken.get_encoding] returned. *)
Lemma constructed_initialised (host : Host) (model_name out out' : str)
      (o : AICaller) :
  AICaller_new host model_name out = (Ok o, out') ->
  initialised o /\
  exists enc, get_encoding host (lit "cl100k_base") = Ok enc
              /\ encoding o = Some enc.
Proof.
  rewrite AICaller_new_run.
  destruct (getenv host (lit "OPENAI_API_KEY")) as [[|c key]|];
    try discriminate.
  destruct (OpenAI_new host (c :: key)) as [client|e]; [|discriminate].
  destruct (get_encoding host (lit "cl100k_base")) as [enc|e].
  - intros [= <- <-]. split.
    + exists (c :: key), client, model_name, enc. now split.
    + now exists enc.
  - destruct (is_Exception e); discriminate.
Qed.

(** The outcome of [count_tokens] depends on the instance only. *)
Lemma count_tokens_reads_self (w w' : World) (text : str) :
  self w = self w' ->
  fst (count_tokens text w) = fst (count_tokens text w').
Proof.
  intros Hself. unfold count_tokens, try_except, bind, getattr.
  rewrite Hself. destruct (encoding (self w')) as [enc|]; [|reflexivity].
  unfold call, ret, raise. destruct (encode enc text) as [tokens|e];
    [reflexivity|]. destruct (is_Exception e); reflexivity.
Qed.

(** The outcome of [count_tokens] depends on the encoding of the instance
    only. *)
Lemma count_tokens_reads_same_encoding (w w' : World) (text : str) :
  encoding (self w) = encoding (self w') ->
  fst (count_tokens text w) = fst (count_tokens text w').
Proof.
  intros Henc. unfold count_tokens, try_except, bind, getattr.
  rewrite Henc. destruct (encoding (self w')) as [enc|]; [|reflexivity].
  unfold call, ret, raise. destruct (encode enc text) as [tokens|e];
    [reflexivity|]. destruct (is_Exception e); reflexivity.
Qed.

(** Where the attributes of a constructed instance come from. *)
Lemma constructed_fields (host : Host) (model_name out out' : str)
      (o : AICaller) :
  AICaller_new host model_name out = (Ok o, out') ->
  exists key client enc,
    key <> []
    /\ getenv host (lit "OPENAI_API_KEY") = Some key
    /\ OpenAI_new host key = Ok client
    /\ get_encoding host (lit "cl100k_base") = Ok enc
    /\ o = {| api_key := Some (Some key); model := Some model_name;
              openai_client := Some client; encoding := Some enc |}
    /\ out' = out.
Proof.
  rewrite AICaller_new_run.
  destruct (getenv host (lit "OPENAI_API_KEY")) as [[|c key]|];
    try discriminate.
  destruct (OpenAI_new host (c :: key)) as [client|e] eqn:Hclient;
    [|discriminate].
  destruct (get_encoding host (lit "cl100k_base")) as [enc|e].
  - intros [= <- <-]. exists (c :: key), client, enc.
    repeat split; auto. discriminate.
  - destruct (is_Exception e); discriminate.
Qed.

(** ** Printing *)

Lemma print_run (text ending : str) (w : World) :
  print text ending w =
  match print_error text ending with
  | None =>
      (Ok tt, {| stdout := stdout w ++ text ++ ending; self := self w |})
  | Some e =>
      (Raise e, {| stdout := stdout w ++ print_left text; self := self w |})
  end.
Proof.
  destruct w as [out o].
  unfold print, bind, write, print_error, print_left. cbn [stdout self].
  destruct (refuses text) as [e|].
  - now rewrite app_nil_r.
  - destruct (refuses ending) as [e|]; [reflexivity|].
    now rewrite app_assoc.
Qed.


(** ** The streaming loop *)

(** One turn of the loop: a chunk without choices raises; a fragment is
    printed, then appended, unless the print raises; any other chunk
    changes nothing. *)
Lemma on_chunk_run (chunk : Chunk) (f : Frame) :
  on_chunk chunk f =
  match choices chunk with
  | [] => (Raise index_error, f)
  | c :: _ =>
      match fragment c with
      | Some text =>
          match print_error text [] with
          | None =>
              (Ok tt,
               {| world := {| stdout := stdout (world f) ++ text;
                              self := self (world f) |};
                  full_text := full_text f ++ text |})
          | Some e =>
              (Raise e,
               {| world := {| stdout := stdout (world f) ++ print_left text;
                              self := self (world f) |};
                  full_text := full_text f |})
          end
      | None => (Ok tt, f)
      end
  end.
Proof.
  unfold on_chunk, first_choice, fragment.
  destruct (choices chunk) as [|c cs]; [reflexivity|].
  unfold bind at 1, ret.
  destruct (delta c) as [d|]; [|reflexivity].
  destruct (content d) as [[|a text]|]; try reflexivity.
  cbn [nonempty]. unfold bind at 1, in_world.
  rewrite print_run. destruct f as [w acc]. cbn [world full_text].
  destruct (print_error (a :: text) []) as [e|]; [reflexivity|].
  cbn. now rewrite app_nil_r.
Qed.

(** The loop writes [shown s], accumulates the fragments of [kept s], and
    finishes as [stop s] says. *)
Lemma for_each_on_chunk (s : Stream) (f : Frame) :
  for_each s on_chunk f =
  (match stop s with None => Ok tt | Some e => Raise e end,
   {| world := {| stdout := stdout (world f) ++ shown s;
                  self := self (world f) |};
      full_text := full_text f ++ concat (kept s) |}).
Proof.
  revert f.
  induction s as [|chunk rest IH|e]; intros [[out o] acc]; simpl.
  - unfold ret. now rewrite !app_nil_r.
  - unfold bind. rewrite on_chunk_run.
    destruct (choices chunk) as [|c cs]; cbn [world stdout self full_text].
    + now rewrite !app_nil_r.
    + destruct (fragment c) as [text|]; [|apply IH].
      unfold prints. destruct (print_error text []) as [e|].
      * now rewrite app_nil_r.
      * rewrite IH. cbn [world stdout self full_text concat].
        now rewrite <- !app_assoc.
  - unfold raise. now rewrite !app_nil_r.
Qed.

(** ** call_model, case by case *)

Lemma call_model_on_failure (w : World) (client : OpenAI) (m prompt : str)
      (max_tokens : Z) (e : exn) :
  openai_client (self w) = Some client ->
  model (self w) = Some m ->
  chat_completions_create client (request m prompt max_tokens) = Raise e ->
  call_model prompt max_tokens w = (Raise e, w).
Proof.
  intros Hc Hm Hs. destruct w as [out [k om oc oe]].
  cbn [self openai_client model] in *. subst om oc.
  cbv beta iota zeta delta
      [call_model call_model_body bind in_world getattr call
       self world stdout full_text openai_client model].
  fold (request m prompt max_tokens). now rewrite Hs.
Qed.

Lemma call_model_on_stream (w : World) (client : OpenAI) (m prompt : str)
      (max_tokens : Z) (s : Stream) :
  openai_client (self w) = Some client ->
  model (self w) = Some m ->
  chat_completions_create client (request m prompt max_tokens) = Ok s ->
  call_model prompt max_tokens w =
  (fst (on_stream s),
   {| stdout := stdout w ++ snd (on_stream s); self := self w |}).
Proof.
  intros Hc Hm Hs. destruct w as [out [k om oc oe]].
  cbn [self openai_client model stdout] in *. subst om oc.
  cbv beta iota zeta delta
      [call_model call_model_body bind in_world getattr call ret
       set_full_text get_full_text try_except
       self world stdout full_text openai_client model].
  fold (request m prompt max_tokens). rewrite Hs.
  fold banner_text. rewrite print_run. unfold on_stream, finish.
  destruct (print_error banner_text nl) as [e|]; [reflexivity|].
  cbv beta iota. rewrite for_each_on_chunk.
  cbn [self world stdout full_text app].
  destruct (stop s) as [e|]; cbv beta iota.
  - destruct (is_Exception e); [|unfold banner, banner_text;
                                   now rewrite <- !app_assoc].
    fold (report_text e). rewrite print_run.
    cbn [self world stdout full_text].
    destruct (print_error (report_text e) nl) as [e'|]; cbv beta iota.
    + unfold banner, banner_text. now rewrite <- !app_assoc.
    + rewrite print_run. cbn [self world stdout full_text].
      destruct (print_error nl nl) as [e'|]; cbv beta iota;
        unfold banner, banner_text, error_report, report_text;
        cbn [fst snd]; now rewrite <- !app_assoc.
  - rewrite print_run. cbn [self world stdout full_text].
    destruct (print_error nl nl) as [e'|]; cbv beta iota;
      unfold banner, banner_text; cbn [fst snd];
      now rewrite <- !app_assoc.
Qed.

(** [call_model] on every instance. *)
Lemma call_model_run (w : World) (prompt : str) (max_tokens : Z) :
  call_model prompt max_tokens w =
  match openai_client (self w) with
  | None => (Raise (no_attribute "openai_client"), w)
  | Some client =>
      match model (self w) with
      | None => (Raise (no_attribute "model"), w)
      | Some m =>
          match chat_completions_create client (request m prompt max_tokens) with
          | Raise e => (Raise e, w)
          | Ok s =>
              (fst (on_stream s),
               {| stdout := stdout w ++ snd (on_stream s); self := self w |})
          end
      end
  end.
Proof.
  destruct (openai_client (self w)) as [client|] eqn:Hc.
  - destruct (model (self w)) as [m|] eqn:Hm.
    + destruct (chat_completions_create client (request m prompt max_tokens))
        as [s|e] eqn:Hs.
      * exact (call_model_on_stream w client m prompt max_tokens s Hc Hm Hs).
      * exact (call_model_on_failure w client m prompt max_tokens e Hc Hm Hs).
    + destruct w as [out [k om oc oe]]. cbn [self openai_client model] in *.
      subst om oc. reflexivity.
  - destruct w as [out [k om oc oe]]. cbn [self openai_client] in *.
    subst oc. reflexivity.
Qed.

(** [call_model] never assigns to an attribute of the instance. *)
Lemma call_model_keeps_self (w : World) (prompt : str) (max_tokens : Z) :
  self (snd (call_model prompt max_tokens w)) = self w.
Proof.
  rewrite call_model_run.
  destruct (openai_client (self w)) as [client|]; [|reflexivity].
  destruct (model (self w)) as [m|]; [|reflexivity].
  now destruct (chat_completions_create client (request m prompt max_tokens)).
Qed.


(** Any text the call returns is the trimmed accumulation. *)
Lemma on_stream_ok (s : Stream) (text : str) :
  fst (on_stream s) = Ok text -> text = strip (concat (kept s)).
Proof.
  unfold on_stream, finish.
  destruct (print_error banner_text nl); [discriminate|].
  destruct (stop s) as [e|].
  - destruct (is_Exception e); [|discriminate].
    destruct (print_error (report_text e) nl); [discriminate|].
    destruct (print_error nl nl); [discriminate|]. now intros [= <-].
  - destruct (print_error nl nl); [discriminate|]. now intros [= <-].
Qed.

Lemma call_model_returns_strip (w : World) (prompt : str) (max_tokens : Z)
      (text : str) :
  fst (call_model prompt max_tokens w) = Ok text ->
  exists acc, text = strip acc.
Proof.
  rewrite call_model_run.
  destruct (openai_client (self w)) as [client|]; [|discriminate].
  destruct (model (self w)) as [m|]; [|discriminate].
  destruct (chat_completions_create client (request m prompt max_tokens))
    as [s|e]; [|discriminate].
  cbn [fst]. intros Hr. exists (concat (kept s)). now apply on_stream_ok.
Qed.

(** ** The fragments kept and the fragments received *)





(** ** Streams that the loop cannot tell apart *)

(** Two calls whose requests return streams with the same fragments kept,
    the same output and the same stop give the same result and the same
    output, whatever the clients and the models. *)
Lemma call_model_streams_agree
      (w1 w2 : World) (c1 c2 : OpenAI) (m1 m2 p1 p2 : str) (t1 t2 : Z)
      (s1 s2 : Stream) :
  stdout w1 = stdout w2 ->
  openai_client (self w1) = Some c1 -> model (self w1) = Some m1 ->
  openai_client (self w2) = Some c2 -> model (self w2) = Some m2 ->
  chat_completions_create c1 (request m1 p1 t1) = Ok s1 ->
  chat_completions_create c2 (request m2 p2 t2) = Ok s2 ->
  kept s1 = kept s2 ->
  shown s1 = shown s2 ->
  stop s1 = stop s2 ->
  fst (call_model p1 t1 w1) = fst (call_model p2 t2 w2)
  /\ stdout (snd (call_model p1 t1 w1)) = stdout (snd (call_model p2 t2 w2)).
Proof.
  intros Hout Hc1 Hm1 Hc2 Hm2 Hs1 Hs2 Hk Hsh Hst.
  rewrite (call_model_on_stream w1 c1 m1 p1 t1 s1 Hc1 Hm1 Hs1).
  rewrite (call_model_on_stream w2 c2 m2 p2 t2 s2 Hc2 Hm2 Hs2).
  assert (Hon : on_stream s1 = on_stream s2).
  { unfold on_stream. now rewrite Hk, Hsh, Hst. }
  rewrite Hon, Hout. split; reflexivity.
Qed.

Lemma kept_first_choice_only (s : Stream) :
  kept (map_chunks first_choice_only s) = kept s
  /\ shown (map_chunks first_choice_only s) = shown s
  /\ stop (map_chunks first_choice_only s) = stop s.
Proof.
  induction s as [|chunk rest [IHk [IHsh IHst]]|e]; simpl; auto.
  destruct (choices chunk) as [|c cs]; simpl; auto.
  now rewrite IHk, IHsh, IHst.
Qed.

Lemma kept_skip (cs : list Chunk) (quiet : Chunk) (rest : Stream) :
  carries_nothing quiet = true ->
  kept (yield_all cs (Yield quiet rest)) = kept (yield_all cs rest)
  /\ shown (yield_all cs (Yield quiet rest)) = shown (yield_all cs rest)
  /\ stop (yield_all cs (Yield quiet rest)) = stop (yield_all cs rest).
Proof.
  intros Hq. induction cs as [|chunk cs [IHk [IHsh IHst]]]; simpl.
  - unfold carries_nothing in Hq.
    destruct (choices quiet) as [|c l]; [discriminate|].
    now destruct (fragment c).
  - now rewrite IHk, IHsh, IHst.
Qed.


(** ** The properties of call_model *)



(** C5: when the request fails before any streaming, [call_model] does not
    catch the failure: the caller gets the very exception the client
    raised, no text is returned and nothing has been printed. *)
Theorem call_model_propagates_request_failure
    (w : World) (client : OpenAI) (m prompt : str) (max_tokens : Z)
    (e : exn) :
  openai_client (self w) = Some client ->
  model (self w) = Some m ->
  chat_completions_create client (request m prompt max_tokens) = Raise e ->
  call_model prompt max_tokens w = (Raise e, w).
Proof.
  exact (call_model_on_failure w client m prompt max_tokens e).
Qed.



(** ** The properties of construction *)

(** C3: whatever the model name, when the credential read from the
    environment is absent or empty the constructor raises the ValueError
    of line 21 and hands out no object. *)
Theorem construction_fails_without_credential
    (host : Host) (model_name out : str) :
  getenv host (lit "OPENAI_API_KEY") = None
  \/ getenv host (lit "OPENAI_API_KEY") = Some [] ->
  AICaller_new host model_name out = (Raise credential_error, out)
  /\ forall o, fst (AICaller_new host model_name out) <> Ok o.
Proof.
  intros Hkey.
  assert (Hr : AICaller_new host model_name out = (Raise credential_error, out)).
  { rewrite AICaller_new_run. destruct Hkey as [-> | ->]; reflexivity. }
  split; [exact Hr|]. intros o. rewrite Hr. discriminate.
Qed.

Lemma construction_fails_without_credential_witness :
  AICaller_new (Fixture.host None (Ok StopIteration) (Ok Fixture.per_char))
               (lit "gpt-4o") []
  = (Raise credential_error, [])
  /\ AICaller_new (Fixture.host (Some []) (Ok StopIteration)
                                (Ok Fixture.per_char))
                  (lit "gpt-3.5-turbo") []
     = (Raise credential_error, []).
Proof.
  split.
  - exact (proj1 (construction_fails_without_credential
                    (Fixture.host None (Ok StopIteration) (Ok Fixture.per_char))
                    (lit "gpt-4o") [] (or_introl eq_refl))).
  - exact (proj1 (construction_fails_without_credential
                    (Fixture.host (Some []) (Ok StopIteration)
                                  (Ok Fixture.per_char))
                    (lit "gpt-3.5-turbo") [] (or_intror eq_refl))).
Defined.



(** ** The properties of count_tokens *)

(** C4: on a constructed instance, [count_tokens] encodes the text with the
    encoding loaded at construction.  When encoding returns tokens it
    returns their number; when encoding fails with an error it raises the
    ValueError of line 84, whose message ends with the error's and whose
    context is the error; it raises only when encoding raises, and any
    count it returns is the number of tokens encoding returned. *)
Theorem count_tokens_counts_or_raises
    (host : Host) (model_name out out' : str) (o : AICaller)
    (console text : str) :
  AICaller_new host model_name out = (Ok o, out') ->
  exists enc,
    get_encoding host (lit "cl100k_base") = Ok enc
    /\ (forall tokens,
           encode enc text = Ok tokens ->
           count_tokens text {| stdout := console; self := o |}
           = (Ok (Z.of_nat (length tokens)),
              {| stdout := console; self := o |}))
    /\ (forall e,
           encode enc text = Raise e ->
           is_Exception e = true ->
           count_tokens text {| stdout := console; self := o |}
           = (Raise (token_error e), {| stdout := console; self := o |})
           /\ exn_cls (token_error e) = ValueError
           /\ exn_str (token_error e)
              = lit "Error encoding text: " ++ exn_str e
           /\ exn_context (token_error e) = Some e)
    /\ (forall e',
           fst (count_tokens text {| stdout := console; self := o |})
           = Raise e' ->
           exists e, encode enc text = Raise e)
    /\ (forall n,
           fst (count_tokens text {| stdout := console; self := o |})
           = Ok n ->
           exists tokens,
             encode enc text = Ok tokens /\ n = Z.of_nat (length tokens)).
Proof.
  intros Hnew.
  destruct (constructed_initialised _ _ _ _ _ Hnew) as [_ [enc [Henc Ho]]].
  exists enc. split; [exact Henc|].
  pose proof (count_tokens_run {| stdout := console; self := o |} enc text Ho)
    as Hrun.
  split; [|split; [|split]].
  - intros tokens Ht. now rewrite Hrun, Ht.
  - intros e Hraise He. rewrite Hrun, Hraise, He. repeat split.
  - intros e' Hr. rewrite Hrun in Hr.
    destruct (encode enc text) as [tokens|e]; [discriminate|]. now exists e.
  - intros n Hr. rewrite Hrun in Hr.
    destruct (encode enc text) as [tokens|e].
    + injection Hr as <-. now exists tokens.
    + destruct (is_Exception e); discriminate.
Qed.

Lemma count_tokens_counts_or_raises_witness :
  AICaller_new Fixture.good_host (lit "gpt-4o") []
  = (Ok (Fixture.instance (Ok StopIteration)), [])
  /\ count_tokens (lit "abc") (Fixture.start (Ok StopIteration))
     = (Ok 3%Z, Fixture.start (Ok StopIteration)).
Proof.
  split; [reflexivity|].
  destruct (count_tokens_counts_or_raises
              Fixture.good_host (lit "gpt-4o") [] []
              (Fixture.instance (Ok StopIteration)) [] (lit "abc") eq_refl)
    as [enc [Henc [Hcount _]]].
  injection Henc as <-.
  exact (Hcount (map Z.of_N (lit "abc")) eq_refl).
Defined.


(** C8: [count_tokens] changes neither the instance nor standard output,
    whatever its outcome; so a second call with the same text gives the
    same outcome, any later [count_tokens] or [call_model] behaves as if
    the call had not been made, and the outcome for a text is the same
    again after any [call_model] on the instance. *)
Theorem count_tokens_is_pure (w : World) (text : str) :
  snd (count_tokens text w) = w
  /\ count_tokens text (snd (count_tokens text w)) = count_tokens text w
  /\ (forall text',
         count_tokens text' (snd (count_tokens text w))
         = count_tokens text' w)
  /\ (forall prompt max_tokens,
         call_model prompt max_tokens (snd (count_tokens text w))
         = call_model prompt max_tokens w)
  /\ (forall prompt max_tokens,
         fst (count_tokens text (snd (call_model prompt max_tokens w)))
         = fst (count_tokens text w)).
Proof.
  rewrite (count_tokens_frame w text). repeat split.
  intros prompt max_tokens.
  apply count_tokens_reads_self, call_model_keeps_self.
Qed.

(** ** Further properties of call_model *)



(** X3: a text [call_model] returns neither begins nor ends with a
    whitespace character, and trimming it again changes nothing. *)
Theorem returned_text_is_trimmed
    (w : World) (prompt : str) (max_tokens : Z) (text : str) :
  fst (call_model prompt max_tokens w) = Ok text ->
  not_space (first_char text) = true
  /\ not_space (last_char text) = true
  /\ strip text = text.
Proof.
  intros Hr.
  destruct (call_model_returns_strip w prompt max_tokens text Hr)
    as [acc ->].
  destruct (strip_ends acc) as [Hf Hl].
  split; [exact Hf|split; [exact Hl|]]. now apply strip_fixed.
Qed.


(** X9: [call_model] consults the client for one request only, the one of
    lines 44 to 50 (one user message holding the prompt, the model of the
    instance, temperature 0, the token budget, streaming on): two clients
    that answer this request alike give the same result and output. *)
Theorem call_model_asks_one_request
    (out : str) (o : AICaller) (c1 c2 : OpenAI) (m prompt : str)
    (max_tokens : Z) :
  model o = Some m ->
  chat_completions_create c1 (request m prompt max_tokens)
  = chat_completions_create c2 (request m prompt max_tokens) ->
  fst (call_model prompt max_tokens
         {| stdout := out; self := set_openai_client c1 o |})
  = fst (call_model prompt max_tokens
           {| stdout := out; self := set_openai_client c2 o |})
  /\ stdout (snd (call_model prompt max_tokens
                    {| stdout := out; self := set_openai_client c1 o |}))
     = stdout (snd (call_model prompt max_tokens
                      {| stdout := out; self := set_openai_client c2 o |})).
Proof.
  intros Hm Hsame.
  destruct (chat_completions_create c2 (request m prompt max_tokens))
    as [s|e] eqn:H2.
  - apply (call_model_streams_agree
             {| stdout := out; self := set_openai_client c1 o |}
             {| stdout := out; self := set_openai_client c2 o |}
             c1 c2 m m prompt prompt max_tokens max_tokens s s);
      auto.
  - rewrite (call_model_on_failure
               {| stdout := out; self := set_openai_client c1 o |}
               c1 m prompt max_tokens e eq_refl Hm Hsame).
    rewrite (call_model_on_failure
               {| stdout := out; self := set_openai_client c2 o |}
               c2 m prompt max_tokens e eq_refl Hm H2).
    split; reflexivity.
Qed.

(** X10: of each chunk only the first choice is read: a stream and the
    same stream with every chunk cut down to its first choice give the
    same result and the same output. *)
Theorem only_first_choice_is_read
    (out : str) (o : AICaller) (c1 c2 : OpenAI) (m prompt : str)
    (max_tokens : Z) (s : Stream) :
  model o = Some m ->
  chat_completions_create c1 (request m prompt max_tokens) = Ok s ->
  chat_completions_create c2 (request m prompt max_tokens)
  = Ok (map_chunks first_choice_only s) ->
  fst (call_model prompt max_tokens
         {| stdout := out; self := set_openai_client c1 o |})
  = fst (call_model prompt max_tokens
           {| stdout := out; self := set_openai_client c2 o |})
  /\ stdout (snd (call_model prompt max_tokens
                    {| stdout := out; self := set_openai_client c1 o |}))
     = stdout (snd (call_model prompt max_tokens
                      {| stdout := out; self := set_openai_client c2 o |})).
Proof.
  intros Hm H1 H2.
  destruct (kept_first_choice_only s) as [Hk [Hsh Hst]].
  apply (call_model_streams_agree
           {| stdout := out; self := set_openai_client c1 o |}
           {| stdout := out; self := set_openai_client c2 o |}
           c1 c2 m m prompt prompt max_tokens max_tokens
           s (map_chunks first_choice_only s)); auto.
Qed.

(** X11: a chunk whose first choice has no delta, no content or an empty
    content is skipped: it prints nothing, appends nothing and does not end
    the consumption, so the call goes as if the chunk were not there. *)
Theorem chunks_without_content_are_skipped
    (out : str) (o : AICaller) (c1 c2 : OpenAI) (m prompt : str)
    (max_tokens : Z) (before : list Chunk) (quiet : Chunk) (after : Stream) :
  model o = Some m ->
  carries_nothing quiet = true ->
  chat_completions_create c1 (request m prompt max_tokens)
  = Ok (yield_all before (Yield quiet after)) ->
  chat_completions_create c2 (request m prompt max_tokens)
  = Ok (yield_all before after) ->
  fst (call_model prompt max_tokens
         {| stdout := out; self := set_openai_client c1 o |})
  = fst (call_model prompt max_tokens
           {| stdout := out; self := set_openai_client c2 o |})
  /\ stdout (snd (call_model prompt max_tokens
                    {| stdout := out; self := set_openai_client c1 o |}))
     = stdout (snd (call_model prompt max_tokens
                      {| stdout := out; self := set_openai_client c2 o |})).
Proof.
  intros Hm Hq H1 H2.
  destruct (kept_skip before quiet after Hq) as [Hk [Hsh Hst]].
  apply (call_model_streams_agree
           {| stdout := out; self := set_openai_client c1 o |}
           {| stdout := out; self := set_openai_client c2 o |}
           c1 c2 m m prompt prompt max_tokens max_tokens
           (yield_all before (Yield quiet after)) (yield_all before after));
    auto.
Qed.

(** ** Construction, then a method *)


(** X13: on an instance the constructor returned, [call_model] raises in
    these cases only: the request raised; the banner could not be
    printed; something that is not an [Exception] stopped the loop; the
    report of an error could not be printed; the closing line could not
    be printed.  What it raises is the exception of the request, of the
    loop or of the write, the last with the error being reported as its
    context. *)
Theorem call_model_raises_only
    (host : Host) (model_name out out' : str) (o : AICaller)
    (console prompt : str) (max_tokens : Z) (e : exn) :
  AICaller_new host model_name out = (Ok o, out') ->
  fst (call_model prompt max_tokens {| stdout := console; self := o |})
  = Raise e ->
  exists client,
    openai_client o = Some client
    /\ (chat_completions_create client (request model_name prompt max_tokens)
        = Raise e
        \/ exists s,
             chat_completions_create client
               (request model_name prompt max_tokens) = Ok s
             /\ (print_error banner_text nl = Some e
                 \/ (stop s = Some e /\ is_Exception e = false)
                 \/ (exists e0 e',
                        stop s = Some e0
                        /\ is_Exception e0 = true
                        /\ print_error (report_text e0) nl = Some e'
                        /\ e = during e0 e')
                 \/ print_error nl nl = Some e)).
Proof.
  intros Hnew Hr.
  destruct (constructed_fields host model_name out out' o Hnew)
    as [key [client [enc [_ [_ [_ [_ [Ho _]]]]]]]].
  exists client. split; [now rewrite Ho|].
  rewrite call_model_run in Hr. rewrite Ho in Hr.
  cbn [self openai_client model] in Hr.
  destruct (chat_completions_create client
              (request model_name prompt max_tokens)) as [s|e0].
  - right. exists s. split; [reflexivity|].
    cbn [fst] in Hr. unfold on_stream, finish in Hr.
    destruct (print_error banner_text nl) as [eb|].
    { left. now injection Hr as <-. }
    right. destruct (stop s) as [e1|].
    + destruct (is_Exception e1) eqn:He1.
      * destruct (print_error (report_text e1) nl) as [e'|] eqn:Hrep.
        -- right. left. exists e1, e'. injection Hr as <-. auto.
        -- right. right. destruct (print_error nl nl) as [ec|];
             [now injection Hr as <-|discriminate].
      * left. injection Hr as <-. auto.
    + right. right. destruct (print_error nl nl) as [ec|];
        [now injection Hr as <-|discriminate].
  - left. cbn [fst] in Hr. now injection Hr as <-.
Qed.

(** ** Further properties of construction and count_tokens *)

(** X5: the model name plays no part in token counting: if construction
    succeeds under one model name it succeeds under any other, with the
    same credential, client and encoding, and [count_tokens] gives the same
    outcome on both instances for every text. *)
Theorem token_count_ignores_model_name
    (host : Host) (m1 m2 out out1 : str) (o1 : AICaller) :
  AICaller_new host m1 out = (Ok o1, out1) ->
  exists o2,
    AICaller_new host m2 out = (Ok o2, out)
    /\ model o2 = Some m2
    /\ api_key o2 = api_key o1
    /\ openai_client o2 = openai_client o1
    /\ encoding o2 = encoding o1
    /\ forall console text,
         fst (count_tokens text {| stdout := console; self := o2 |})
         = fst (count_tokens text {| stdout := console; self := o1 |}).
Proof.
  intros Hnew.
  destruct (constructed_fields host m1 out out1 o1 Hnew)
    as [key [client [enc [Hne [Hkey [Hclient [Henc [Ho _]]]]]]]].
  exists {| api_key := Some (Some key); model := Some m2;
            openai_client := Some client; encoding := Some enc |}.
  split.
  - rewrite AICaller_new_run, Hkey.
    destruct key as [|c key]; [congruence|]. now rewrite Hclient, Henc.
  - rewrite Ho. repeat split. intros console text.
    apply count_tokens_reads_same_encoding. reflexivity.
Qed.

Lemma token_count_ignores_model_name_witness :
  exists o2,
    AICaller_new Fixture.good_host (lit "gpt-3.5-turbo") [] = (Ok o2, [])
    /\ model o2 = Some (lit "gpt-3.5-turbo")
    /\ api_key o2 = api_key (Fixture.instance (Ok StopIteration))
    /\ openai_client o2 = openai_client (Fixture.instance (Ok StopIteration))
    /\ encoding o2 = encoding (Fixture.instance (Ok StopIteration))
    /\ forall console text,
         fst (count_tokens text {| stdout := console; self := o2 |})
         = fst (count_tokens text
                  {| stdout := console;
                     self := Fixture.instance (Ok StopIteration) |}).
Proof.
  exact (token_count_ignores_model_name
           Fixture.good_host (lit "gpt-4o") (lit "gpt-3.5-turbo") [] []
           (Fixture.instance (Ok StopIteration)) eq_refl).
Defined.

(** X6: construction succeeds exactly when the environment holds a
    non-empty credential, the client is built and the encoding is loaded;
    the instance then holds the credential, the model name given, that
    client and that encoding.  Whether it succeeds or not, the constructor
    prints nothing. *)
Theorem construction_succeeds_exactly_when
    (host : Host) (model_name out : str) :
  (forall o,
      fst (AICaller_new host model_name out) = Ok o <->
      exists key client enc,
        key <> []
        /\ getenv host (lit "OPENAI_API_KEY") = Some key
        /\ OpenAI_new host key = Ok client
        /\ get_encoding host (lit "cl100k_base") = Ok enc
        /\ o = {| api_key := Some (Some key); model := Some model_name;
                  openai_client := Some client; encoding := Some enc |})
  /\ snd (AICaller_new host model_name out) = out.
Proof.
  split; [|now rewrite AICaller_new_run].
  intros o. split.
  - intros Hr.
    destruct (AICaller_new host model_name out) as [r out'] eqn:Hnew.
    simpl in Hr. subst r.
    destruct (constructed_fields host model_name out out' o Hnew)
      as [key [client [enc [Hne [Hkey [Hclient [Henc [Ho _]]]]]]]].
    now exists key, client, enc.
  - intros [key [client [enc [Hne [Hkey [Hclient [Henc ->]]]]]]].
    rewrite AICaller_new_run, Hkey.
    destruct key as [|c key]; [congruence|]. now rewrite Hclient, Henc.
Qed.

(** X7: the constructor wraps nothing but an error of
    [tiktoken.get_encoding]: an exception of the [OpenAI] constructor, of
    any class, and a raise of [get_encoding] that is not an [Exception]
    reach the caller as they are. *)
Theorem construction_passes_other_failures_on
    (host : Host) (model_name out key : str) :
  getenv host (lit "OPENAI_API_KEY") = Some key ->
  key <> [] ->
  (forall e,
      OpenAI_new host key = Raise e ->
      AICaller_new host model_name out = (Raise e, out))
  /\ (forall client e,
         OpenAI_new host key = Ok client ->
         get_encoding host (lit "cl100k_base") = Raise e ->
         is_Exception e = false ->
         AICaller_new host model_name out = (Raise e, out)).
Proof.
  intros Hkey Hne. destruct key as [|c key]; [congruence|]. split.
  - intros e Hclient. now rewrite AICaller_new_run, Hkey, Hclient.
  - intros client e Hclient Henc He.
    now rewrite AICaller_new_run, Hkey, Hclient, Henc, He.
Qed.

Lemma construction_passes_other_failures_on_witness :
  AICaller_new (Cases.failing_host (Raise Cases.no_client)
                                   (Ok Fixture.per_char))
               (lit "gpt-4o") []
  = (Raise Cases.no_client, [])
  /\ AICaller_new (Cases.failing_host (Ok (Fixture.client (Ok StopIteration)))
                                      (Raise Fixture.interrupt))
                  (lit "gpt-4o") []
     = (Raise Fixture.interrupt, []).
Proof.
  assert (Hne : lit "sk-test" <> []) by discriminate.
  split.
  - exact (proj1 (construction_passes_other_failures_on
                    (Cases.failing_host (Raise Cases.no_client)
                                        (Ok Fixture.per_char))
                    (lit "gpt-4o") [] (lit "sk-test") eq_refl Hne)
                 Cases.no_client eq_refl).
  - exact (proj2 (construction_passes_other_failures_on
                    (Cases.failing_host
                       (Ok (Fixture.client (Ok StopIteration)))
                       (Raise Fixture.interrupt))
                    (lit "gpt-4o") [] (lit "sk-test") eq_refl Hne)
                 (Fixture.client (Ok StopIteration)) Fixture.interrupt
                 eq_refl eq_refl eq_refl).
Defined.

(** X8: a raise of [encode] that is not an [Exception] is not wrapped:
    [count_tokens] raises it as it is, and leaves the world unchanged. *)
Theorem count_tokens_lets_signals_through
    (w : World) (enc : Encoding) (text : str) (e : exn) :
  encoding (self w) = Some enc ->
  encode enc text = Raise e ->
  is_Exception e = false ->
  count_tokens text w = (Raise e, w).
Proof.
  intros Henc Hraise He.
  now rewrite (count_tokens_run w enc text Henc), Hraise, He.
Qed.

Lemma count_tokens_lets_signals_through_witness :
  count_tokens (lit "abc")
    {| stdout := [];
       self := set_encoding Cases.interrupting
                 (Fixture.instance (Ok StopIteration)) |}
  = (Raise Fixture.interrupt,
     {| stdout := [];
        self := set_encoding Cases.interrupting
                  (Fixture.instance (Ok StopIteration)) |}).
Proof.
  exact (count_tokens_lets_signals_through
           {| stdout := [];
              self := set_encoding Cases.interrupting
                        (Fixture.instance (Ok StopIteration)) |}
           Cases.interrupting (lit "abc") Fixture.interrupt
           eq_refl eq_refl eq_refl).
Defined.

End Console.

(** ** The methods run on the fixtures *)

Example construct_ok :
  AICaller_new (Fixture.host (Some (lit "sk-test")) (Ok StopIteration)
                             (Ok Fixture.per_char)) (lit "gpt-4o") []
  = (Ok (Fixture.instance (Ok StopIteration)), []).
Proof. reflexivity. Qed.

Example hello_run :
  call_model Cases.utf8_strict (lit "hi") 4096
             (Fixture.start (Ok Fixture.hello_then_lost))
  = (Ok (lit "Hello"),
     {| stdout := banner ++ lit "Hello"
                  ++ lit "Error during streaming: Connection error."
                  ++ nl ++ nl ++ nl;
        self := Fixture.instance (Ok Fixture.hello_then_lost) |}).
Proof. reflexivity. Qed.

Example closed_run :
  call_model Cases.closed (lit "hi") 4096
             (Fixture.start (Ok Fixture.greeting))
  = (Raise Cases.closed_file, Fixture.start (Ok Fixture.greeting)).
Proof. reflexivity. Qed.

Example count_run :
  count_tokens (lit "abc") (Fixture.start (Ok StopIteration))
  = (Ok 3%Z, Fixture.start (Ok StopIteration)).
Proof. reflexivity. Qed.

(** ** The claims on the fixtures *)





Lemma call_model_propagates_request_failure_witness :
  call_model Cases.utf8_strict (lit "hi") default_max_tokens
             (Fixture.start (Raise Fixture.rejected))
  = (Raise Fixture.rejected, Fixture.start (Raise Fixture.rejected)).
Proof.
  exact (call_model_propagates_request_failure
           Cases.utf8_strict
           (Fixture.start (Raise Fixture.rejected))
           (Fixture.client (Raise Fixture.rejected))
           (lit "gpt-4o") (lit "hi") default_max_tokens Fixture.rejected
           eq_refl eq_refl eq_refl).
Defined.







(** ** The further properties on the fixtures *)


Lemma returned_text_is_trimmed_witness :
  fst (call_model Cases.utf8_strict (lit "hi") default_max_tokens
                  (Fixture.start (Ok Fixture.greeting)))
  = Ok (lit "Hello, world")
  /\ strip (lit "Hello, world") = lit "Hello, world".
Proof.
  split; [reflexivity|].
  exact (proj2 (proj2 (returned_text_is_trimmed
                         Cases.utf8_strict
                         (Fixture.start (Ok Fixture.greeting))
                         (lit "hi") default_max_tokens
                         (lit "Hello, world") eq_refl))).
Defined.


Lemma call_model_asks_one_request_witness :
  chat_completions_create Cases.picky
    (request (lit "gpt-4o") (lit "hi") default_max_tokens)
  = Ok Fixture.greeting
  /\ chat_completions_create Cases.picky
       (request (lit "gpt-4o") (lit "hi") 100)
     = Raise Fixture.rejected
  /\ fst (call_model Cases.utf8_strict (lit "hi") default_max_tokens
            {| stdout := [];
               self := set_openai_client (Fixture.client (Ok Fixture.greeting))
                         (Fixture.instance (Ok StopIteration)) |})
     = fst (call_model Cases.utf8_strict (lit "hi") default_max_tokens
              {| stdout := [];
                 self := set_openai_client Cases.picky
                           (Fixture.instance (Ok StopIteration)) |}).
Proof.
  repeat (split; [reflexivity|]).
  exact (proj1 (call_model_asks_one_request
                  Cases.utf8_strict
                  [] (Fixture.instance (Ok StopIteration))
                  (Fixture.client (Ok Fixture.greeting)) Cases.picky
                  (lit "gpt-4o") (lit "hi") default_max_tokens
                  eq_refl eq_refl)).
Defined.

Lemma only_first_choice_is_read_witness :
  fst (call_model Cases.utf8_strict (lit "hi") default_max_tokens
         {| stdout := [];
            self := set_openai_client (Fixture.client (Ok Cases.doubled))
                      (Fixture.instance (Ok StopIteration)) |})
  = Ok (lit "Hello")
  /\ fst (call_model Cases.utf8_strict (lit "hi") default_max_tokens
            {| stdout := [];
               self := set_openai_client (Fixture.client (Ok Cases.doubled))
                         (Fixture.instance (Ok StopIteration)) |})
     = fst (call_model Cases.utf8_strict (lit "hi") default_max_tokens
              {| stdout := [];
                 self := set_openai_client
                           (Fixture.client
                              (Ok (map_chunks first_choice_only Cases.doubled)))
                           (Fixture.instance (Ok StopIteration)) |}).
Proof.
  split; [reflexivity|].
  exact (proj1 (only_first_choice_is_read
                  Cases.utf8_strict
                  [] (Fixture.instance (Ok StopIteration))
                  (Fixture.client (Ok Cases.doubled))
                  (Fixture.client
                     (Ok (map_chunks first_choice_only Cases.doubled)))
                  (lit "gpt-4o") (lit "hi") default_max_tokens Cases.doubled
                  eq_refl eq_refl eq_refl)).
Defined.

Lemma chunks_without_content_are_skipped_witness :
  carries_nothing Cases.finish = true
  /\ carries_nothing (Fixture.text_delta "") = true
  /\ carries_nothing Fixture.role_only = true
  /\ stdout (snd (call_model Cases.utf8_strict (lit "hi") default_max_tokens
       {| stdout := [];
          self := set_openai_client
                    (Fixture.client
                       (Ok (yield_all Fixture.leading
                              (Yield Cases.finish StopIteration))))
                    (Fixture.instance (Ok StopIteration)) |}))
     = stdout (snd (call_model Cases.utf8_strict (lit "hi") default_max_tokens
         {| stdout := [];
            self := set_openai_client
                      (Fixture.client
                         (Ok (yield_all Fixture.leading StopIteration)))
                      (Fixture.instance (Ok StopIteration)) |})).
Proof.
  repeat (split; [reflexivity|]).
  exact (proj2 (chunks_without_content_are_skipped
                  Cases.utf8_strict
                  [] (Fixture.instance (Ok StopIteration))
                  (Fixture.client
                     (Ok (yield_all Fixture.leading
                            (Yield Cases.finish StopIteration))))
                  (Fixture.client (Ok (yield_all Fixture.leading StopIteration)))
                  (lit "gpt-4o") (lit "hi") default_max_tokens
                  Fixture.leading Cases.finish StopIteration
                  eq_refl eq_refl eq_refl eq_refl)).
Defined.


Lemma call_model_raises_only_witness :
  fst (call_model Cases.utf8_strict (lit "hi") default_max_tokens
         {| stdout := [];
            self := Fixture.instance (Ok Cases.hel_then_bad) |})
  = Raise (during Cases.bad_report Cases.encode_error)
  /\ fst (call_model Cases.closed (lit "hi") default_max_tokens
            {| stdout := [];
               self := Fixture.instance (Ok Fixture.greeting) |})
     = Raise Cases.closed_file
  /\ exists client,
       openai_client (Fixture.instance (Raise Fixture.rejected)) = Some client
       /\ (chat_completions_create client
             (request (lit "gpt-4o") (lit "hi") default_max_tokens)
           = Raise Fixture.rejected
           \/ exists s,
                chat_completions_create client
                  (request (lit "gpt-4o") (lit "hi") default_max_tokens) = Ok s
                /\ (print_error Cases.utf8_strict banner_text nl
                    = Some Fixture.rejected
                    \/ (stop Cases.utf8_strict s = Some Fixture.rejected
                        /\ is_Exception Fixture.rejected = false)
                    \/ (exists e0 e',
                           stop Cases.utf8_strict s = Some e0
                           /\ is_Exception e0 = true
                           /\ print_error Cases.utf8_strict
                                (report_text e0) nl = Some e'
                           /\ Fixture.rejected = during e0 e')
                    \/ print_error Cases.utf8_strict nl nl
                       = Some Fixture.rejected)).
Proof.
  repeat (split; [reflexivity|]).
  exact (call_model_raises_only
           Cases.utf8_strict
           (Fixture.host (Some (lit "sk-test")) (Raise Fixture.rejected)
                         (Ok Fixture.per_char))
           (lit "gpt-4o") [] [] (Fixture.instance (Raise Fixture.rejected))
           [] (lit "hi") default_max_tokens Fixture.rejected
           eq_refl eq_refl).
Defined.
